(** * relaydns example client: a shallow embedding of cmd/example_client/main.go

    The demo client starts a local HTTP backend in a goroutine, creates a
    libp2p host, builds a [relaydns.ClientConfig] from its command-line flags,
    constructs the advertising client, waits for SIGINT/SIGTERM, sleeps 200ms
    and returns; [client.Close()] and [cancel()] run as deferred calls.

    Strings are Go strings (byte sequences): [String.string], whose
    characters are bytes.  Durations are [time.Duration] values, an integer
    count of nanoseconds.  The effects of [runClient] are threaded through a
    state monad over a [World] that records the root context, the backend
    goroutine, the client session and the trace of observable actions. *)

From Stdlib Require Import String Ascii List Bool Arith ZArith Lia Permutation Sorted.
From ExtLib Require Import Structures.Monad Structures.MonadState.
From ExtLib Require Import Data.Monads.StateMonad.
Import ListNotations.
Import MonadNotation.
Local Open Scope string_scope.
Local Open Scope monad_scope.

(** ** Go run-time values *)

Module Go.

(** A Go expression either yields a value or panics at run time. *)
Inductive result (A : Type) : Type :=
| Ok (a : A)
| Panic (msg : string).
Arguments Ok {A} a.
Arguments Panic {A} msg.

Definition bindr {A B : Type} (r : result A) (k : A -> result B) : result B :=
  match r with
  | Ok a => k a
  | Panic m => Panic m
  end.

(** [len(s)]: the number of bytes of [s]. *)
Definition len (s : string) : nat := String.length s.

(** [s[i]]: the byte at index [i]; out of range is a run-time panic. *)
Definition index (s : string) (i : nat) : result ascii :=
  match String.get i s with
  | Some c => Ok c
  | None => Panic "index out of range"
  end.

(** The [error] interface, as far as this program builds errors: an opaque
    error of a callee, or [fmt.Errorf(prefix + "%w", err)] wrapping one. *)
Inductive error : Type :=
| ErrNew (msg : string)
| ErrWrap (prefix : string) (inner : error).

(** [err.Error()] *)
Fixpoint Error (e : error) : string :=
  match e with
  | ErrNew m => m
  | ErrWrap p inner => p ++ Error inner
  end.

(** [errors.Unwrap(err)] *)
Definition Unwrap (e : error) : option error :=
  match e with
  | ErrNew _ => None
  | ErrWrap _ inner => Some inner
  end.

(** [time.Duration]: nanoseconds. *)
Definition Duration : Type := Z.
Definition Millisecond : Duration := 1000000%Z.
Definition Second : Duration := (1000 * Millisecond)%Z.

End Go.
Import Go.

(** ** Flags and client configuration *)

(** The package-level flag variables (main.go, lines 24-37). *)
Record Flags : Type := mkFlags {
  flagServerURL : string;
  flagBootstraps : list string;
  flagRelay : bool;
  flagBackendHTTP : string;
  flagProtocol : string;
  flagTopic : string;
  flagAdvertiseEvery : Duration;
  flagName : string;
  flagDNS : string;
  flagPreferQUIC : bool;
  flagPreferLocal : bool;
  flagHTTPTimeout : Duration
}.

(** [init] (lines 39-53): the value each flag has when it is not supplied. *)
Definition init : Flags := {|
  flagServerURL := "http://localhost:8080";
  flagBootstraps := [];
  flagRelay := true;
  flagBackendHTTP := ":8081";
  flagProtocol := "/relaydns/http/1.0";
  flagTopic := "relaydns.backends";
  flagAdvertiseEvery := (3 * Second)%Z;
  flagName := "demo-http";
  flagDNS := "demo-http.example";
  flagPreferQUIC := true;
  flagPreferLocal := true;
  flagHTTPTimeout := (3 * Second)%Z
|}.

(** [relaydns.ClientConfig], with the fields [runClient] fills in. *)
Record ClientConfig : Type := mkClientConfig {
  Protocol : string;
  Topic : string;
  AdvertiseEvery : Duration;
  Name : string;
  DNS : string;
  TargetTCP : string;
  ServerURL : string;
  Bootstraps : list string;
  HTTPTimeout : Duration;
  PreferQUIC : bool;
  PreferLocal : bool
}.

(** [addrToTarget] (lines 134-139).  The condition
    [len(listen) > 0 && listen[0] == ':'] short-circuits: the byte is read
    only when the length test holds. *)
Definition addrToTarget (listen : string) : result string :=
  if (0 <? len listen)%nat then
    bindr (index listen 0) (fun c =>
      if Ascii.eqb c ":" then Ok ("127.0.0.1" ++ listen) else Ok listen)
  else Ok listen.

(** The composite literal passed to [relaydns.NewClient] (lines 98-111). *)
Definition clientConfig (f : Flags) : result ClientConfig :=
  bindr (addrToTarget (flagBackendHTTP f)) (fun target =>
    Ok {| Protocol := flagProtocol f;
          Topic := flagTopic f;
          AdvertiseEvery := flagAdvertiseEvery f;
          Name := flagName f;
          DNS := flagDNS f;
          TargetTCP := target;
          ServerURL := flagServerURL f;
          Bootstraps := flagBootstraps f;
          HTTPTimeout := flagHTTPTimeout f;
          PreferQUIC := flagPreferQUIC f;
          PreferLocal := flagPreferLocal f |}).

(** ** Vocabulary for listen and target addresses *)

(** The address is non-empty and its first byte is a colon. *)
Definition startsWithColon (s : string) : bool :=
  match s with
  | String c _ => Ascii.eqb c ":"
  | EmptyString => false
  end.

Fixpoint hasColon (s : string) : bool :=
  match s with
  | String c r => Ascii.eqb c ":" || hasColon r
  | EmptyString => false
  end.

(** A host as a listen address may name one: a name or an IPv4 literal
    (no colon in it), or a bracketed IPv6 literal. *)
Definition namesHost (host : string) : bool :=
  match host with
  | String c _ => negb (hasColon host) || Ascii.eqb c "["
  | EmptyString => false
  end.

(** [host:port] split at the last colon; [None] when there is no colon. *)
Fixpoint splitHostPort (s : string) : option (string * string) :=
  match s with
  | EmptyString => None
  | String c r =>
      match splitHostPort r with
      | Some (h, p) => Some (String c h, p)
      | None => if Ascii.eqb c ":" then Some (EmptyString, r) else None
      end
  end.

(** The hosts that stand for every interface: none at all, the IPv4
    wildcard, the IPv6 wildcard. *)
Definition isWildcardHost (h : string) : bool :=
  String.eqb h "" || String.eqb h "0.0.0.0" || String.eqb h "[::]" || String.eqb h "::".

(** The address is a host:port whose host is a wildcard. *)
Definition wildcardTarget (s : string) : bool :=
  match splitHostPort s with
  | Some (h, _) => isWildcardHost h
  | None => false
  end.

(** ** The world [runClient] acts on *)

(** A libp2p host handle, as far as the program reads it: [h.ID()] and
    [h.Addrs()], both already rendered by [String()]. *)
Record Host : Type := mkHost {
  ID : string;
  Addrs : list string
}.

(** Modelled from the spec: the states of the Advertisement Client's session
    (section 4.4: Created, Joining, Advertising, Closing, Closed); the client
    library itself is not among the sources. *)
Inductive phase : Type := Created | Joining | Advertising | Closing | Closed.

(** The observable actions of the program. *)
Inductive event : Type :=
| EvListenAndServe (addr : string)  (* http.ListenAndServe(flagBackendHTTP, mux) *)
| EvCancel                          (* cancel() *)
| EvMakeHost (port : Z) (relay : bool)
| EvNewClient (h : Host) (cfg : ClientConfig)
| EvLogInfo (msg : string)
| EvLogError (msg : string) (e : error)
| EvLogFatal (msg : string) (e : error)
| EvNotify                          (* signal.Notify(sig, SIGINT, SIGTERM) *)
| EvSignal                          (* <-sig *)
| EvSleep (d : Duration)
| EvClose.                          (* client.Close() *)

(** The two goroutines of the program. *)
Inductive goroutine : Type := Main | Backend.

Record World : Type := mkWorld {
  ctxDone : bool;              (* the root context is cancelled *)
  httpServing : bool;          (* the backend goroutine is inside ListenAndServe *)
  session : option phase;      (* the client's session, once constructed *)
  releases : nat;              (* how often the session's resources were released *)
  trace : list (goroutine * event)
}.

Definition initial : World :=
  {| ctxDone := false; httpServing := false; session := None; releases := 0; trace := [] |}.

(** What the main goroutine did, in order. *)
Definition mainEvents (w : World) : list event :=
  map snd (filter (fun ge => match fst ge with Main => true | Backend => false end) (trace w)).

(** The advertisement loop is running. *)
Definition advertising (w : World) : bool :=
  match session w with
  | Some Advertising => true
  | _ => false
  end.

(** Where the backend goroutine may be scheduled relative to the main one. *)
Inductive point : Type := AtStartup | AfterHost | WhileWaiting | DuringSleep.

Definition point_eqb (p q : point) : bool :=
  match p, q with
  | AtStartup, AtStartup | AfterHost, AfterHost
  | WhileWaiting, WhileWaiting | DuringSleep, DuringSleep => true
  | _, _ => false
  end.

(** What [http.ListenAndServe] does in a run: it blocks for good, or it
    returns an error when the main goroutine is at a given point. *)
Inductive HttpFate : Type :=
| ServesForever
| FailsAt (p : point) (e : error).

(** One run's environment: what the calls the program does not implement
    return, and whether a termination signal is ever delivered. *)
Record Env : Type := mkEnv {
  httpFate : HttpFate;
  makeHostResult : error + Host;     (* relaydns.MakeHost: inl err / inr h *)
  newClientResult : option error;    (* relaydns.NewClient: the error, if any *)
  signalArrives : bool
}.

Definition M : Type -> Type := state World.

Definition update (f : World -> World) : M unit :=
  mkState (fun w => (tt, f w)).

Definition emit (g : goroutine) (e : event) : M unit :=
  update (fun w => {| ctxDone := ctxDone w; httpServing := httpServing w;
                      session := session w; releases := releases w;
                      trace := (trace w ++ [(g, e)])%list |}).

(** ** The client library *)

Module Relaydns.

(** Modelled from the spec: tearing a session down (section 4.4, Closing and
    Closed: stop the publisher loop, release the topic and overlay resources);
    a session that is not advertising has nothing left to release.  The
    library's code is not among the sources. *)
Definition teardown (w : World) : World :=
  match session w with
  | Some Advertising =>
      {| ctxDone := ctxDone w; httpServing := httpServing w;
         session := Some Closed; releases := S (releases w); trace := trace w |}
  | _ => w
  end.

(** Modelled from the spec: [Client.Close] (section 4.4: Close signals the
    loop to stop, waits for it and releases the resources; it is idempotent).
    The library's code is not among the sources. *)
Definition Close : M (option error) :=
  update teardown ;; ret None.

(** Modelled from the spec: [NewClient] (section 4.4: a failed construction
    allocates nothing; a successful one returns once the publisher loop is
    scheduled; the top-level cancellation signal closes the session).  The
    library's code is not among the sources; what the call returns in a run is
    the environment's. *)
Definition NewClient (env : Env) (h : Host) (cfg : ClientConfig) : M (option error) :=
  match newClientResult env with
  | Some err => ret (Some err)
  | None =>
      update (fun w =>
        let w' := {| ctxDone := ctxDone w; httpServing := httpServing w;
                     session := Some Advertising;
                     releases := releases w; trace := trace w |} in
        if ctxDone w then teardown w' else w') ;;
      ret None
  end.

(** [relaydns.MakeHost(ctx, port, relay)]: what it returns is the
    environment's. *)
Definition MakeHost (env : Env) (port : Z) (relay : bool) : M (error + Host) :=
  ret (makeHostResult env).

(** Modelled from the spec: the Address Preference Selector (section 4.2).
    Each address is classified along two axes; with preferQUIC the
    low-latency transport sorts first, with preferLocal loopback and local
    addresses sort first as a secondary key, and ties keep the discovery
    order.  The library's code is not among the sources. *)
Record PreferenceConfig : Type := mkPreferenceConfig {
  preferQUIC : bool;
  preferLocal : bool
}.

Section Selector.
Variable addr : Type.
Variable isQUIC : addr -> bool.
Variable isLocal : addr -> bool.

(** Modelled from the spec: the sort key of section 4.2, transport class
    before locality class. *)
Definition rank (cfg : PreferenceConfig) (a : addr) : nat :=
  (if preferQUIC cfg && negb (isQUIC a) then 2 else 0) +
  (if preferLocal cfg && negb (isLocal a) then 1 else 0).

(** Modelled from the spec: stable insertion by [rank]. *)
Fixpoint place (cfg : PreferenceConfig) (a : addr) (l : list addr) : list addr :=
  match l with
  | [] => [a]
  | b :: l' => if (rank cfg a <=? rank cfg b)%nat then a :: b :: l'
               else b :: place cfg a l'
  end.

(** Modelled from the spec: the selector, most preferred first. *)
Fixpoint selectAddrs (cfg : PreferenceConfig) (l : list addr) : list addr :=
  match l with
  | [] => []
  | a :: l' => place cfg a (selectAddrs cfg l')
  end.
End Selector.

End Relaydns.

(** ** The program *)

Definition emits (g : goroutine) (es : list event) : M unit :=
  update (fun w => {| ctxDone := ctxDone w; httpServing := httpServing w;
                      session := session w; releases := releases w;
                      trace := (trace w ++ map (pair g) es)%list |}).

Definition setServing (b : bool) : M unit :=
  update (fun w => {| ctxDone := ctxDone w; httpServing := b;
                      session := session w; releases := releases w;
                      trace := trace w |}).

(** [cancel()], the root context's cancel function.  The host and the client
    were given the context, so the client's session closes with it (its
    reaction is taken at the cancellation itself); [http.ListenAndServe] was
    given only the address and the mux, so the backend is left as it is. *)
Definition cancel (g : goroutine) : M unit :=
  emit g EvCancel ;;
  update (fun w => Relaydns.teardown
                     {| ctxDone := true; httpServing := httpServing w;
                        session := session w; releases := releases w;
                        trace := trace w |}).

(** The backend goroutine up to its call of [http.ListenAndServe]
    (lines 66-86); its first steps are taken at the [go] statement. *)
Definition backendStart (f : Flags) : M unit :=
  emit Backend (EvLogInfo ("[client] local backend http " ++ flagBackendHTTP f)) ;;
  emit Backend (EvListenAndServe (flagBackendHTTP f)) ;;
  setServing true.

(** The backend goroutine after [http.ListenAndServe] returned an error
    (lines 86-89). *)
Definition backendFail (err : error) : M unit :=
  setServing false ;;
  emit Backend (EvLogError "[client] http backend error" err) ;;
  cancel Backend.

(** The main goroutine is at point [p]: the backend goroutine takes its
    failure branch there if that is when [ListenAndServe] returns. *)
Definition yield (env : Env) (p : point) : M unit :=
  match httpFate env with
  | FailsAt q err => if point_eqb p q then backendFail err else ret tt
  | ServesForever => ret tt
  end.

(** The log lines about the host (lines 117-123). *)
Definition hostLines (h : Host) : list event :=
  match Addrs h with
  | [] => [EvLogInfo ("[client] host peer: " ++ ID h ++ " (no listen addrs yet)")]
  | addrs => map (fun a => EvLogInfo ("[client] host addr: " ++ a ++ "/p2p/" ++ ID h)) addrs
  end.

(** How a call of [runClient] ends: it returns its error result, it blocks
    for good on the signal channel, or it panics. *)
Inductive Outcome : Type :=
| Returned (err : option error)
| Blocked
| Panicked (msg : string).

(** [defer d] in front of [body]: [d] runs when the function returns or
    panics, and never when it blocks for good. *)
Definition deferring (d : M unit) (body : M Outcome) : M Outcome :=
  o <- body ;;
  match o with
  | Blocked => ret Blocked
  | _ => d ;; ret o
  end.

(** [fmt.Errorf(prefix + "%w", err)] *)
Definition Errorf (prefix : string) (err : error) : error := ErrWrap prefix err.

(** [runClient] (lines 61-132), on the flags as parsed. *)
Definition runClient (env : Env) (f : Flags) : M Outcome :=
  deferring (cancel Main)
    (backendStart f ;;
     yield env AtStartup ;;
     emit Main (EvMakeHost 0 (flagRelay f)) ;;
     r <- Relaydns.MakeHost env 0 (flagRelay f) ;;
     match r with
     | inl err => ret (Returned (Some (Errorf "make host: " err)))
     | inr h =>
         yield env AfterHost ;;
         match clientConfig f with
         | Panic msg => ret (Panicked msg)
         | Ok cfg =>
             emit Main (EvNewClient h cfg) ;;
             c <- Relaydns.NewClient env h cfg ;;
             match c with
             | Some err => ret (Returned (Some (Errorf "new client: " err)))
             | None =>
                 deferring (emit Main EvClose ;; Relaydns.Close ;; ret tt)
                   (emits Main (hostLines h) ;;
                    emit Main EvNotify ;;
                    yield env WhileWaiting ;;
                    if signalArrives env then
                      emit Main EvSignal ;;
                      emit Main (EvLogInfo "[client] shutting down") ;;
                      yield env DuringSleep ;;
                      emit Main (EvSleep (200 * Millisecond)%Z) ;;
                      ret (Returned None)
                    else ret Blocked)
             end
         end
     end).

(** How the process stands after [main]: exited with a status, or alive. *)
Inductive Exit : Type :=
| Exited (code : Z)
| Running.

(** [main] (lines 55-59): [rootCmd.Execute()] runs [runClient]; an error is
    fatal ([log.Fatal] exits with status 1), a panic exits with status 2. *)
Definition main (env : Env) (f : Flags) : M Exit :=
  o <- runClient env f ;;
  match o with
  | Returned (Some err) =>
      emit Main (EvLogFatal "execute root command" err) ;; ret (Exited 1)
  | Returned None => ret (Exited 0)
  | Blocked => ret Running
  | Panicked _ => ret (Exited 2)
  end.



(** ** Concrete runs *)

(** The flags after [--backend-http addr]. *)
Definition withBackendHTTP (addr : string) (f : Flags) : Flags :=
  {| flagServerURL := flagServerURL f;
     flagBootstraps := flagBootstraps f;
     flagRelay := flagRelay f;
     flagBackendHTTP := addr;
     flagProtocol := flagProtocol f;
     flagTopic := flagTopic f;
     flagAdvertiseEvery := flagAdvertiseEvery f;
     flagName := flagName f;
     flagDNS := flagDNS f;
     flagPreferQUIC := flagPreferQUIC f;
     flagPreferLocal := flagPreferLocal f;
     flagHTTPTimeout := flagHTTPTimeout f |}.

Definition demoHost : Host :=
  {| ID := "12D3KooWdemo"; Addrs := ["/ip4/127.0.0.1/udp/4001/quic-v1"] |}.

(** A run in which every call succeeds and a signal arrives. *)
Definition quietEnv : Env :=
  {| httpFate := ServesForever; makeHostResult := inr demoHost;
     newClientResult := None; signalArrives := true |}.

(** A run in which the backend's port is taken and no signal arrives. *)
Definition portTakenEnv : Env :=
  {| httpFate := FailsAt AtStartup (ErrNew "listen tcp :8081: bind: address already in use");
     makeHostResult := inr demoHost; newClientResult := None;
     signalArrives := false |}.

(** A run in which [MakeHost] fails, and one in which [NewClient] fails. *)
Definition noHostEnv : Env :=
  {| httpFate := ServesForever; makeHostResult := inl (ErrNew "no transports");
     newClientResult := None; signalArrives := true |}.

Definition noClientEnv : Env :=
  {| httpFate := ServesForever; makeHostResult := inr demoHost;
     newClientResult := Some (ErrNew "no bootstrap peers"); signalArrives := true |}.

(** ** The HTTP backend *)

Module Http.

(** The double quote, byte 34. *)
Definition dq : string := String (ascii_of_nat 34) EmptyString.

(** The template literal of [pageTmpl] (lines 141-162), byte for byte. *)
Definition pageText : string :=
  "<!DOCTYPE html>
<html lang=" ++ dq ++
  "en" ++ dq ++
  ">
<head>
	<meta charset=" ++ dq ++
  "UTF-8" ++ dq ++
  ">
	<title>RelayDNS Backend</title>
	<style>
		body { font-family: sans-serif; background: #f9f9f9; padding: 40px; }
		h1 { color: #333; }
		footer { margin-top: 40px; color: #666; font-size: 0.9em; }
		.card { background: white; border-radius: 12px; padding: 24px; box-shadow: 0 2px 6px rgba(0,0,0,0.1); }
	</style>
</head>
<body>
	<div class=" ++ dq ++
  "card" ++ dq ++
  ">
		<h1>🚀 RelayDNS Backend</h1>
		<p>This page is served from the backend node.</p>
		<p>Current time: <b>{{.Now}}</b></p>
		<p>Hostname: <b>{{.Host}}</b></p>
	</div>
	<footer>relaydns demo client — served locally at {{.Addr}}</footer>
</body>
</html>".

(** A parsed template, for the part of text/template the program uses:
    literal text and field actions [{{.Name}}]; [Parse] below refuses every
    other action. *)
Inductive node : Type :=
| TextNode (s : string)
| FieldNode (name : string).

Definition Template : Type := list node.

Fixpoint revOnto (s acc : string) : string :=
  match s with
  | EmptyString => acc
  | String c r => revOnto r (String c acc)
  end.

Fixpoint dropSpaces (s : string) : string :=
  match s with
  | String c r => if Ascii.eqb c " " then dropSpaces r else s
  | EmptyString => EmptyString
  end.

Definition isIdentByte (c : ascii) : bool :=
  let n := nat_of_ascii c in
  ((65 <=? n)%nat && (n <=? 90)%nat) || ((97 <=? n)%nat && (n <=? 122)%nat) ||
  ((48 <=? n)%nat && (n <=? 57)%nat) || (n =? 95)%nat.

Fixpoint allIdent (s : string) : bool :=
  match s with
  | String c r => isIdentByte c && allIdent r
  | EmptyString => true
  end.

(** The field an action names: [.Name] between optional spaces. *)
Definition fieldOfAction (action : string) : option string :=
  let a := revOnto (dropSpaces (revOnto (dropSpaces action) "")) "" in
  match a with
  | String c name =>
      if Ascii.eqb c "." && negb (String.eqb name "") && allIdent name
      then Some name else None
  | EmptyString => None
  end.

Definition textNode (revText : string) : Template :=
  match revText with
  | EmptyString => []
  | _ => [TextNode (revOnto revText "")]
  end.

(** The scanner of [Parse]: [cur] holds, reversed, the bytes read of the
    text or action under way. *)
Fixpoint scan (inAction : bool) (cur : string) (s : string) : error + Template :=
  match s with
  | EmptyString =>
      if inAction then inl (ErrNew "template: index: unclosed action")
      else inr (textNode cur)
  | String c r =>
      if inAction then
        match r with
        | String c' r' =>
            if Ascii.eqb c "}" && Ascii.eqb c' "}" then
              match fieldOfAction (revOnto cur "") with
              | Some name =>
                  match scan false "" r' with
                  | inr t => inr (FieldNode name :: t)
                  | inl e => inl e
                  end
              | None => inl (ErrNew "template: index: unexpected action")
              end
            else scan true (String c cur) r
        | EmptyString => scan true (String c cur) r
        end
      else
        match r with
        | String c' r' =>
            if Ascii.eqb c "{" && Ascii.eqb c' "{" then
              match scan true "" r' with
              | inr t => inr (textNode cur ++ t)%list
              | inl e => inl e
              end
            else scan false (String c cur) r
        | EmptyString => scan false (String c cur) r
        end
  end.

(** [template.New(name).Parse(text)] *)
Definition Parse (text : string) : error + Template := scan false "" text.

(** [template.Must]: a parse error is a panic. *)
Definition Must (r : error + Template) : result Template :=
  match r with
  | inr t => Ok t
  | inl e => Panic (Error e)
  end.

(** [pageTmpl] (line 141), initialised when the program starts. *)
Definition pageTmpl : result Template := Must (Parse pageText).

(** The data the page handler hands to the template (lines 69-77). *)
Record PageData : Type := mkPageData {
  Now : string;
  Host : string;
  Addr : string
}.

(** Evaluating [.name] on the data: a field the struct lacks is an error. *)
Definition field (d : PageData) (name : string) : error + string :=
  if String.eqb name "Now" then inr (Now d)
  else if String.eqb name "Host" then inr (Host d)
  else if String.eqb name "Addr" then inr (Addr d)
  else inl (ErrNew ("template: index: can't evaluate field " ++ name)).

(** An [http.ResponseWriter]: the status once the header is written, and
    the body written so far. *)
Record ResponseWriter : Type := mkResponseWriter {
  status : option Z;
  body : string
}.

Definition fresh : ResponseWriter := {| status := None; body := "" |}.

(** [w.WriteHeader(code)]: a second call changes nothing. *)
Definition WriteHeader (code : Z) (w : ResponseWriter) : ResponseWriter :=
  match status w with
  | Some _ => w
  | None => {| status := Some code; body := body w |}
  end.

(** [w.Write(p)]: the first write sends the header with status 200. *)
Definition Write (p : string) (w : ResponseWriter) : ResponseWriter :=
  let w' := WriteHeader 200 w in
  {| status := status w'; body := body w' ++ p |}.

(** [t.Execute(w, data)]: text/template writes text and field values as
    they are, with no escaping, and stops at the first error. *)
Fixpoint Execute (t : Template) (d : PageData) (w : ResponseWriter)
  : ResponseWriter * option error :=
  match t with
  | [] => (w, None)
  | TextNode s :: t' => Execute t' d (Write s w)
  | FieldNode name :: t' =>
      match field d name with
      | inr v => Execute t' d (Write v w)
      | inl e => (w, Some e)
      end
  end.

(** A request, as far as the handlers and the mux read it: [r.URL.Path]
    and [r.Host]. *)
Record Request : Type := mkRequest {
  Path : string;
  ReqHost : string
}.

(** A handler, given the wall clock [time.Now().Format(time.RFC1123)] at
    the request. *)
Definition Handler : Type := string -> Request -> ResponseWriter -> ResponseWriter.

(** The handler of ["/"] (lines 68-79); the error of [Execute] is dropped. *)
Definition pageHandler (tmpl : Template) (f : Flags) : Handler :=
  fun now r w =>
    let data := {| Now := now; Host := ReqHost r; Addr := flagBackendHTTP f |} in
    fst (Execute tmpl data w).

(** The handler of ["/healthz"] (lines 80-83). *)
Definition healthzHandler : Handler :=
  fun _ _ w => Write "ok" (WriteHeader 200 w).

(** [http.NotFound] *)
Definition NotFound : Handler :=
  fun _ _ w => Write ("404 page not found" ++ String (ascii_of_nat 10) "") (WriteHeader 404 w).

(** An [http.ServeMux] with plain path patterns. *)
Definition ServeMux : Type := list (string * Handler).

Fixpoint registered (pattern : string) (mux : ServeMux) : bool :=
  match mux with
  | [] => false
  | (p, _) :: mux' => String.eqb p pattern || registered pattern mux'
  end.

(** [mux.HandleFunc(pattern, h)]: an empty pattern or one registered twice
    is a panic. *)
Definition HandleFunc (pattern : string) (h : Handler) (mux : ServeMux) : result ServeMux :=
  if String.eqb pattern "" then Panic "http: invalid pattern"
  else if registered pattern mux then Panic "http: multiple registrations"
  else Ok (mux ++ [(pattern, h)])%list.

Definition endsWithSlash (s : string) : bool :=
  match revOnto s "" with
  | String c _ => Ascii.eqb c "/"
  | EmptyString => false
  end.

(** A pattern that ends in a slash names a subtree, any other a single
    path. *)
Definition patternMatches (pattern path : string) : bool :=
  if endsWithSlash pattern then String.prefix pattern path
  else String.eqb pattern path.

(** The matching pattern that is the longest wins. *)
Fixpoint lookup (mux : ServeMux) (path : string) (best : option (string * Handler))
  : option (string * Handler) :=
  match mux with
  | [] => best
  | (p, h) :: mux' =>
      if patternMatches p path then
        match best with
        | Some (q, _) =>
            if (String.length q <? String.length p)%nat
            then lookup mux' path (Some (p, h)) else lookup mux' path best
        | None => lookup mux' path (Some (p, h))
        end
      else lookup mux' path best
  end.

(** The segments of a path between its slashes; [cur] holds, reversed, the
    bytes read of the segment under way. *)
Fixpoint segments (cur : string) (s : string) : list string :=
  match s with
  | EmptyString => [revOnto cur ""]
  | String c r =>
      if Ascii.eqb c "/" then revOnto cur "" :: segments "" r
      else segments (String c cur) r
  end.

Definition dotSegment (seg : string) : bool :=
  String.eqb seg "." || String.eqb seg "..".

(** Every segment but the last is a name: not empty, not a dot segment. *)
Fixpoint plainSegments (segs : list string) : bool :=
  match segs with
  | [] => true
  | [seg] => negb (dotSegment seg)
  | seg :: rest => negb (String.eqb seg "") && negb (dotSegment seg) && plainSegments rest
  end.

(** A path the mux serves as it stands: it begins with a slash and has no
    empty, [.] or [..] segment, so cleaning leaves it unchanged. *)
Definition canonicalPath (path : string) : bool :=
  String.prefix "/" path &&
  match segments "" path with
  | _ :: rest => plainSegments rest
  | [] => false
  end.

(** [mux.ServeHTTP(w, r)] for a request whose path is canonical (the mux
    answers any other path with a redirect to its canonical form). *)
Definition ServeHTTP (mux : ServeMux) : Handler :=
  fun now r w =>
    match lookup mux (Path r) None with
    | Some (_, h) => h now r w
    | None => NotFound now r w
    end.

(** The mux of the backend goroutine (lines 67-83). *)
Definition backendMux (f : Flags) : result ServeMux :=
  bindr pageTmpl (fun tmpl =>
  bindr (HandleFunc "/" (pageHandler tmpl f) []) (fun mux =>
  HandleFunc "/healthz" healthzHandler mux)).

End Http.

(** * Properties *)

(** ** Target addresses *)

Lemma addrToTarget_eq (s : string) :
  addrToTarget s = Ok (if startsWithColon s then "127.0.0.1" ++ s else s).
Proof.
  unfold addrToTarget, len, index.
  destruct s as [|c r]; simpl; [reflexivity|].
  destruct (Ascii.eqb c ":"); reflexivity.
Qed.

Lemma clientConfig_eq (f : Flags) :
  clientConfig f =
  Ok {| Protocol := flagProtocol f;
        Topic := flagTopic f;
        AdvertiseEvery := flagAdvertiseEvery f;
        Name := flagName f;
        DNS := flagDNS f;
        TargetTCP := if startsWithColon (flagBackendHTTP f)
                     then "127.0.0.1" ++ flagBackendHTTP f
                     else flagBackendHTTP f;
        ServerURL := flagServerURL f;
        Bootstraps := flagBootstraps f;
        HTTPTimeout := flagHTTPTimeout f;
        PreferQUIC := flagPreferQUIC f;
        PreferLocal := flagPreferLocal f |}.
Proof.
  unfold clientConfig. rewrite addrToTarget_eq. reflexivity.
Qed.

Lemma namesHost_not_colon (host rest : string) :
  namesHost host = true -> startsWithColon (host ++ rest) = false.
Proof.
  destruct host as [|c r]; simpl; [discriminate|].
  destruct (Ascii.eqb_spec c ":") as [->|Hc]; simpl; [discriminate|reflexivity].
Qed.

Lemma splitHostPort_cons (c : ascii) (s h p : string) :
  splitHostPort s = Some (h, p) -> splitHostPort (String c s) = Some (String c h, p).
Proof. intros H. simpl. rewrite H. reflexivity. Qed.

Lemma splitHostPort_colon (s : string) :
  startsWithColon s = true -> exists h p, splitHostPort s = Some (h, p).
Proof.
  destruct s as [|c r]; simpl; [discriminate|].
  intros Hc. rewrite Hc.
  destruct (splitHostPort r) as [[h p]|]; eauto.
Qed.

Lemma loopback_not_wildcard (s : string) :
  startsWithColon s = true -> wildcardTarget ("127.0.0.1" ++ s) = false.
Proof.
  intros Hc. destruct (splitHostPort_colon s Hc) as (h & p & Hs).
  unfold wildcardTarget.
  change ("127.0.0.1" ++ s) with
    (String "1" (String "2" (String "7" (String "." (String "0" (String "."
      (String "0" (String "." (String "1" s))))))))).
  rewrite (splitHostPort_cons _ _ _ _
            (splitHostPort_cons _ _ _ _
            (splitHostPort_cons _ _ _ _
            (splitHostPort_cons _ _ _ _
            (splitHostPort_cons _ _ _ _
            (splitHostPort_cons _ _ _ _
            (splitHostPort_cons _ _ _ _
            (splitHostPort_cons _ _ _ _
            (splitHostPort_cons _ _ _ _ Hs))))))))).
  reflexivity.
Qed.

(** ** Runs of the client *)

Lemma runState_bind {A B : Type} (c : M A) (k : A -> M B) (w : World) :
  runState (bind c k) w = let (a, w') := runState c w in runState (k a) w'.
Proof. reflexivity. Qed.

Lemma filter_main_pair (es : list event) :
  filter (fun ge : goroutine * event =>
            match fst ge with Main => true | Backend => false end)
         (map (pair Main) es) = map (pair Main) es.
Proof. induction es as [|e es IH]; simpl; [reflexivity | now rewrite IH]. Qed.

Lemma map_snd_pair (g : goroutine) (es : list event) :
  map snd (map (pair g) es) = es.
Proof. induction es as [|e es IH]; simpl; [reflexivity | now rewrite IH]. Qed.

Lemma hostLines_log (h : Host) (e : event) :
  In e (hostLines h) -> exists msg, e = EvLogInfo msg.
Proof.
  unfold hostLines. destruct (Addrs h) as [|a l].
  - simpl. intros [<-|[]]. eauto.
  - intros Hin. apply in_map_iff in Hin. destruct Hin as (x & <- & _). eauto.
Qed.

(** The main goroutine's actions in a run whose host and client are built. *)
Lemma mainEvents_run (env : Env) (f : Flags) (h : Host) (cfg : ClientConfig) :
  makeHostResult env = inr h -> newClientResult env = None ->
  clientConfig f = Ok cfg ->
  mainEvents (snd (runState (runClient env f) initial)) =
  ([EvMakeHost 0 (flagRelay f); EvNewClient h cfg] ++ hostLines h ++ [EvNotify] ++
   (if signalArrives env
    then [EvSignal; EvLogInfo "[client] shutting down";
          EvSleep (200 * Millisecond)%Z; EvClose; EvCancel]
    else []))%list.
Proof.
  intros Hh Hc Hcfg. rewrite clientConfig_eq in Hcfg. injection Hcfg as <-.
  unfold mainEvents.
  destruct env as [fate mh nc sg]; simpl in *; subst.
  unfold runClient, Relaydns.MakeHost, Relaydns.NewClient, yield.
  rewrite (clientConfig_eq f).
  destruct fate as [|[] ?], sg; cbn;
    repeat rewrite filter_app; repeat rewrite map_app;
    rewrite filter_main_pair, map_snd_pair; cbn;
    repeat rewrite <- app_assoc; reflexivity.
Qed.

(** The outcome of a run, by what the environment delivers. *)
Lemma runClient_outcome (env : Env) (f : Flags) :
  fst (runState (runClient env f) initial) =
  match makeHostResult env with
  | inl err => Returned (Some (Errorf "make host: " err))
  | inr _ =>
      match newClientResult env with
      | Some err => Returned (Some (Errorf "new client: " err))
      | None => if signalArrives env then Returned None else Blocked
      end
  end.
Proof.
  destruct env as [fate mh nc sg]; simpl.
  unfold runClient, Relaydns.MakeHost, Relaydns.NewClient, yield.
  rewrite (clientConfig_eq f).
  destruct fate as [|[] ?], mh as [err|h], nc as [err'|], sg; reflexivity.
Qed.

Lemma main_runClient (env : Env) (f : Flags) :
  fst (runState (main env f) initial) =
  match fst (runState (runClient env f) initial) with
  | Returned (Some _) => Exited 1
  | Returned None => Exited 0
  | Blocked => Running
  | Panicked _ => Exited 2
  end.
Proof.
  unfold main. rewrite runState_bind.
  destruct (runState (runClient env f) initial) as [[[err|]| |msg] w]; reflexivity.
Qed.

Lemma runClient_calls_MakeHost (env : Env) (f : Flags) :
  In (Main, EvMakeHost 0 (flagRelay f))
     (trace (snd (runState (runClient env f) initial))).
Proof.
  destruct env as [fate mh nc sg].
  unfold runClient, Relaydns.MakeHost, Relaydns.NewClient, yield.
  rewrite (clientConfig_eq f).
  destruct fate as [|[] ?], mh as [err|h], nc as [err'|], sg; cbn;
    repeat rewrite in_app_iff; cbn; tauto.
Qed.

Lemma runClient_calls_NewClient (env : Env) (f : Flags) (h : Host) (cfg : ClientConfig) :
  makeHostResult env = inr h -> clientConfig f = Ok cfg ->
  In (Main, EvNewClient h cfg) (trace (snd (runState (runClient env f) initial))).
Proof.
  intros Hh Hcfg. rewrite clientConfig_eq in Hcfg. injection Hcfg as <-.
  destruct env as [fate mh nc sg]; simpl in Hh; subst mh.
  unfold runClient, Relaydns.MakeHost, Relaydns.NewClient, yield.
  rewrite (clientConfig_eq f).
  destruct fate as [|[] ?], nc as [err'|], sg; cbn;
    repeat rewrite in_app_iff; cbn; tauto.
Qed.

(** C1: a listen address that begins with a colon ([:port]) is normalized to
    [127.0.0.1:port]; an address that names a host is passed through
    unchanged; and what [addrToTarget] returns is the [TargetTCP] of the
    configuration [runClient] hands to [NewClient]. *)
Theorem addrToTarget_normalizes_listen_address (listen : string) :
  (forall port, listen = ":" ++ port ->
     addrToTarget listen = Ok ("127.0.0.1:" ++ port)) /\
  (forall host port, listen = host ++ ":" ++ port -> namesHost host = true ->
     addrToTarget listen = Ok listen) /\
  (forall env f h, flagBackendHTTP f = listen -> makeHostResult env = inr h ->
     exists cfg, addrToTarget listen = Ok (TargetTCP cfg) /\
       In (Main, EvNewClient h cfg)
          (trace (snd (runState (runClient env f) initial)))).
Proof.
  repeat split.
  - intros port ->. rewrite addrToTarget_eq. reflexivity.
  - intros host port -> Hhost. rewrite addrToTarget_eq.
    now rewrite (namesHost_not_colon host (":" ++ port) Hhost).
  - intros env f h <- Hh.
    eexists. split; [|apply runClient_calls_NewClient; [exact Hh | apply clientConfig_eq]].
    rewrite addrToTarget_eq. reflexivity.
Qed.

Lemma addrToTarget_normalizes_listen_address_witness :
  addrToTarget ":8081" = Ok "127.0.0.1:8081" /\
  addrToTarget "0.0.0.0:9000" = Ok "0.0.0.0:9000" /\
  exists cfg, addrToTarget ":8081" = Ok (TargetTCP cfg) /\
    In (Main, EvNewClient demoHost cfg)
       (trace (snd (runState (runClient quietEnv init) initial))).
Proof.
  split; [|split].
  - exact (proj1 (addrToTarget_normalizes_listen_address ":8081") "8081" eq_refl).
  - exact (proj1 (proj2 (addrToTarget_normalizes_listen_address "0.0.0.0:9000"))
             "0.0.0.0" "9000" eq_refl eq_refl).
  - exact (proj2 (proj2 (addrToTarget_normalizes_listen_address ":8081"))
             quietEnv init demoHost eq_refl eq_refl).
Defined.

(** C8: [addrToTarget] never panics and validates nothing: the result is
    ["127.0.0.1" + s] when [s] is non-empty and its first byte is a colon,
    and [s] otherwise; the empty string maps to itself, and a string that is
    no address, such as ["foo"], becomes the configuration's [TargetTCP] as
    it is. *)
Theorem addrToTarget_total_without_validation :
  (forall s, addrToTarget s =
             Ok (if (0 <? len s)%nat && startsWithColon s then "127.0.0.1" ++ s else s)) /\
  addrToTarget "" = Ok "" /\
  addrToTarget "foo" = Ok "foo" /\
  (forall f, exists cfg, clientConfig f = Ok cfg /\
                         addrToTarget (flagBackendHTTP f) = Ok (TargetTCP cfg)) /\
  (forall f, exists cfg, clientConfig (withBackendHTTP "foo" f) = Ok cfg /\
                         TargetTCP cfg = "foo") /\
  (forall f, exists cfg, clientConfig (withBackendHTTP "" f) = Ok cfg /\
                         TargetTCP cfg = "").
Proof.
  split; [|split; [|split; [|split; [|split]]]].
  - intros s. rewrite addrToTarget_eq.
    destruct s as [|c r]; simpl; [reflexivity|].
    destruct (Ascii.eqb c ":"); reflexivity.
  - reflexivity.
  - reflexivity.
  - intros f. eexists. split; [apply clientConfig_eq|].
    rewrite addrToTarget_eq. reflexivity.
  - intros f. eexists. split; [apply clientConfig_eq | reflexivity].
  - intros f. eexists. split; [apply clientConfig_eq | reflexivity].
Qed.

(** C2, as the specification states it, fails: a listen address that names
    the wildcard host is handed on as it is. *)
Lemma wildcard_listen_address_stays_wildcard :
  addrToTarget "0.0.0.0:9000" = Ok "0.0.0.0:9000" /\
  wildcardTarget "0.0.0.0:9000" = true /\
  exists cfg, clientConfig (withBackendHTTP "0.0.0.0:9000" init) = Ok cfg /\
              wildcardTarget (TargetTCP cfg) = true.
Proof.
  split; [reflexivity | split; [reflexivity|]].
  eexists. split; reflexivity.
Qed.

(** C2, amended: a listen address of the form [:port] yields a target whose
    host is 127.0.0.1, never a wildcard; every other listen address is the
    target as it stands, so the target's host is a wildcard exactly when the
    listen address names one. *)
Theorem target_wildcard_only_when_listen_names_one (listen : string) :
  exists target,
    addrToTarget listen = Ok target /\
    wildcardTarget target = negb (startsWithColon listen) && wildcardTarget listen /\
    (forall port, listen = ":" ++ port -> target = "127.0.0.1:" ++ port) /\
    (startsWithColon listen = false -> target = listen).
Proof.
  eexists. split; [apply addrToTarget_eq|]. split; [|split].
  - destruct (startsWithColon listen) eqn:Hc; simpl; [|reflexivity].
    apply loopback_not_wildcard, Hc.
  - intros port ->. reflexivity.
  - intros ->. reflexivity.
Qed.

Lemma target_wildcard_only_when_listen_names_one_witness :
  (exists target, addrToTarget ":8081" = Ok target /\
                  wildcardTarget target = false /\ target = "127.0.0.1:8081") /\
  (exists target, addrToTarget "0.0.0.0:9000" = Ok target /\
                  wildcardTarget target = true /\ target = "0.0.0.0:9000").
Proof.
  split.
  - destruct (target_wildcard_only_when_listen_names_one ":8081")
      as (t & Ht & Hw & Hp & _).
    exists t. split; [exact Ht | split; [exact Hw | exact (Hp "8081" eq_refl)]].
  - destruct (target_wildcard_only_when_listen_names_one "0.0.0.0:9000")
      as (t & Ht & Hw & _ & Hsame).
    exists t. split; [exact Ht | split; [exact Hw | exact (Hsame eq_refl)]].
Defined.

Lemma runClient_serves (env : Env) (f : Flags) :
  In (Backend, EvListenAndServe (flagBackendHTTP f))
     (trace (snd (runState (runClient env f) initial))).
Proof.
  destruct env as [fate mh nc sg].
  unfold runClient, Relaydns.MakeHost, Relaydns.NewClient, yield.
  rewrite (clientConfig_eq f).
  destruct fate as [|[] ?], mh as [err|h], nc as [err'|], sg; cbn;
    repeat rewrite in_app_iff; cbn; tauto.
Qed.

(** C10: with no flag supplied the program runs on the values [init]
    registers: server URL http://localhost:8080, no bootstrap address, relay
    enabled, backend on :8081 (so the target is 127.0.0.1:8081), protocol
    /relaydns/http/1.0, topic relaydns.backends, an advert every 3s,
    prefer-QUIC and prefer-local set, and a 3s timeout for the health fetch. *)
Theorem defaults_without_flags :
  exists cfg,
    clientConfig init = Ok cfg /\
    ServerURL cfg = "http://localhost:8080" /\
    Bootstraps cfg = [] /\
    flagRelay init = true /\
    flagBackendHTTP init = ":8081" /\
    TargetTCP cfg = "127.0.0.1:8081" /\
    Protocol cfg = "/relaydns/http/1.0" /\
    Topic cfg = "relaydns.backends" /\
    AdvertiseEvery cfg = (3 * 1000 * 1000 * 1000)%Z /\
    PreferQUIC cfg = true /\
    PreferLocal cfg = true /\
    HTTPTimeout cfg = (3 * 1000 * 1000 * 1000)%Z /\
    (forall env,
       let w := snd (runState (runClient env init) initial) in
       In (Backend, EvListenAndServe ":8081") (trace w) /\
       In (Main, EvMakeHost 0 true) (trace w) /\
       (forall h, makeHostResult env = inr h -> In (Main, EvNewClient h cfg) (trace w))).
Proof.
  eexists. split; [apply clientConfig_eq|].
  repeat (split; [reflexivity|]).
  intros env w. subst w. split; [|split].
  - apply (runClient_serves env init).
  - apply (runClient_calls_MakeHost env init).
  - intros h Hh. apply runClient_calls_NewClient; [exact Hh | apply clientConfig_eq].
Qed.

Lemma defaults_without_flags_witness :
  exists cfg,
    clientConfig init = Ok cfg /\ TargetTCP cfg = "127.0.0.1:8081" /\
    In (Main, EvNewClient demoHost cfg)
       (trace (snd (runState (runClient quietEnv init) initial))).
Proof.
  destruct defaults_without_flags
    as (cfg & Hcfg & _ & _ & _ & _ & Ht & _ & _ & _ & _ & _ & _ & Hrun).
  exists cfg. split; [exact Hcfg | split; [exact Ht|]].
  exact (proj2 (proj2 (Hrun quietEnv)) demoHost eq_refl).
Defined.

(** C3: when host creation or client construction fails, [runClient]
    returns one error that names the stage (the callee's error wrapped behind
    "make host: " or "new client: "), [main] logs it as fatal and the process
    exits with a status other than zero; no session exists, so nothing is
    advertised. *)
Theorem construction_failure_is_fatal (env : Env) (f : Flags) (e : error) :
  let run := runState (runClient env f) initial in
  let top := runState (main env f) initial in
  (makeHostResult env = inl e ->
     fst run = Returned (Some (Errorf "make host: " e)) /\
     Error (Errorf "make host: " e) = "make host: " ++ Error e /\
     Unwrap (Errorf "make host: " e) = Some e /\
     fst top = Exited 1 /\
     In (Main, EvLogFatal "execute root command" (Errorf "make host: " e)) (trace (snd top)) /\
     session (snd top) = None /\ advertising (snd top) = false /\
     (forall h cfg, ~ In (Main, EvNewClient h cfg) (trace (snd top)))) /\
  (forall h, makeHostResult env = inr h -> newClientResult env = Some e ->
     fst run = Returned (Some (Errorf "new client: " e)) /\
     Error (Errorf "new client: " e) = "new client: " ++ Error e /\
     Unwrap (Errorf "new client: " e) = Some e /\
     fst top = Exited 1 /\
     In (Main, EvLogFatal "execute root command" (Errorf "new client: " e)) (trace (snd top)) /\
     session (snd top) = None /\ advertising (snd top) = false).
Proof.
  intros run top. subst run top. split.
  - intros Hh.
    destruct env as [fate mh nc sg]; simpl in Hh; subst mh.
    unfold main, runClient, Relaydns.MakeHost, Relaydns.NewClient, yield.
    destruct fate as [|[] ?]; cbn;
      (repeat split; try reflexivity;
       [ repeat rewrite in_app_iff; cbn; tauto
       | intros h cfg Hin; repeat (apply in_app_or in Hin; destruct Hin as [Hin|Hin]);
         cbn in Hin; intuition discriminate ]).
  - intros h Hh Hc.
    destruct env as [fate mh nc sg]; simpl in Hh, Hc; subst mh nc.
    unfold main, runClient, Relaydns.MakeHost, Relaydns.NewClient, yield.
    rewrite (clientConfig_eq f).
    destruct fate as [|[] ?]; cbn;
      (repeat split; try reflexivity; repeat rewrite in_app_iff; cbn; tauto).
Qed.

Lemma construction_failure_is_fatal_witness :
  (fst (runState (runClient noHostEnv init) initial) =
     Returned (Some (Errorf "make host: " (ErrNew "no transports"))) /\
   fst (runState (main noHostEnv init) initial) = Exited 1) /\
  (fst (runState (runClient noClientEnv init) initial) =
     Returned (Some (Errorf "new client: " (ErrNew "no bootstrap peers"))) /\
   fst (runState (main noClientEnv init) initial) = Exited 1).
Proof.
  split.
  - destruct (proj1 (construction_failure_is_fatal noHostEnv init (ErrNew "no transports"))
                eq_refl) as (Hr & _ & _ & Hx & _).
    split; [exact Hr | exact Hx].
  - destruct (proj2 (construction_failure_is_fatal noClientEnv init
                       (ErrNew "no bootstrap peers")) demoHost eq_refl eq_refl)
      as (Hr & _ & _ & Hx & _).
    split; [exact Hr | exact Hx].
Defined.

(** C4, as the specification states it, fails: in a run where everything
    succeeds and the signal arrives, the process exits with the root context
    cancelled while the backend goroutine is still inside
    [http.ListenAndServe], which was never given the context. *)
Lemma backend_outlives_cancellation :
  fst (runState (main quietEnv init) initial) = Exited 0 /\
  ctxDone (snd (runState (main quietEnv init) initial)) = true /\
  In (Main, EvCancel) (trace (snd (runState (main quietEnv init) initial))) /\
  httpServing (snd (runState (main quietEnv init) initial)) = true.
Proof.
  repeat split; try reflexivity.
  cbn. tauto.
Qed.

(** C4, amended: the root context is cancelled by the time [runClient]
    returns, and the cancellation reaches the advertising client: once the
    context is cancelled no advertisement loop runs.  The HTTP backend's
    serving loop is not given the context; it is left only when
    [ListenAndServe] itself fails. *)
Theorem cancellation_reaches_client_only (env : Env) (f : Flags) :
  let o := fst (runState (runClient env f) initial) in
  let w := snd (runState (runClient env f) initial) in
  (forall err, o = Returned err -> ctxDone w = true /\ In (Main, EvCancel) (trace w)) /\
  (ctxDone w = true -> advertising w = false) /\
  (httpServing w = false -> exists p e, httpFate env = FailsAt p e) /\
  (httpFate env = ServesForever -> httpServing w = true).
Proof.
  intros o w. subst o w.
  destruct env as [fate mh nc sg].
  unfold runClient, Relaydns.MakeHost, Relaydns.NewClient, yield.
  rewrite (clientConfig_eq f). cbn [httpFate makeHostResult newClientResult signalArrives].
  destruct fate as [|[] e], mh as [err|h], nc as [err'|], sg; cbn;
    (split; [intros ? ?; split; [reflexivity || discriminate
                                | repeat rewrite in_app_iff; cbn; tauto || discriminate]
            | split; [intros ?; reflexivity || discriminate
                     | split; [intros ?; eauto; discriminate
                              | intros ?; reflexivity || discriminate]]]).
Qed.

Lemma cancellation_reaches_client_only_witness :
  ctxDone (snd (runState (runClient quietEnv init) initial)) = true /\
  advertising (snd (runState (runClient quietEnv init) initial)) = false /\
  httpServing (snd (runState (runClient quietEnv init) initial)) = true.
Proof.
  pose proof (cancellation_reaches_client_only quietEnv init) as (Hret & Hadv & _ & Hhttp).
  destruct (Hret None eq_refl) as [Hctx _].
  split; [exact Hctx | split; [exact (Hadv Hctx) | exact (Hhttp eq_refl)]].
Defined.

Lemma prefix_quiet (f : Flags) (h : Host) (cfg : ClientConfig) (e : event) :
  In e ([EvMakeHost 0 (flagRelay f); EvNewClient h cfg] ++ hostLines h ++ [EvNotify])%list ->
  e <> EvSignal /\ e <> EvClose /\ e <> EvCancel.
Proof.
  intros Hin. apply in_app_or in Hin. destruct Hin as [Hin|Hin].
  - simpl in Hin. destruct Hin as [<-|[<-|[]]]; repeat split; discriminate.
  - apply in_app_or in Hin. destruct Hin as [Hin|Hin].
    + apply hostLines_log in Hin. destruct Hin as [msg ->]. repeat split; discriminate.
    + simpl in Hin. destruct Hin as [<-|[]]. repeat split; discriminate.
Qed.

(** C5: in a run whose client is constructed, the main goroutine calls
    [client.Close()] only after the wait for the termination signal has
    returned; between the signal and the return of [runClient] it sleeps
    200 milliseconds, and the deferred [Close] and [cancel] follow the
    sleep, in that order. *)
Theorem close_only_after_signal_and_sleep (env : Env) (f : Flags) (h : Host) :
  makeHostResult env = inr h -> newClientResult env = None ->
  let o := fst (runState (runClient env f) initial) in
  let w := snd (runState (runClient env f) initial) in
  (signalArrives env = false -> o = Blocked /\ ~ In EvClose (mainEvents w)) /\
  (signalArrives env = true ->
     o = Returned None /\
     exists before,
       mainEvents w =
         (before ++ [EvSignal; EvLogInfo "[client] shutting down";
                     EvSleep 200000000%Z; EvClose; EvCancel])%list /\
       ~ In EvSignal before /\ ~ In EvClose before /\ ~ In EvCancel before).
Proof.
  intros Hh Hc o w. subst o w.
  rewrite runClient_outcome, Hh, Hc.
  rewrite (mainEvents_run env f h _ Hh Hc (clientConfig_eq f)).
  split; intros Hs; rewrite Hs.
  - split; [reflexivity|]. rewrite app_nil_r. change (?a ++ ?b ++ [EvNotify])%list
      with (a ++ (b ++ [EvNotify]))%list.
    intros Hin. apply prefix_quiet in Hin. destruct Hin as (_ & Hne & _). now apply Hne.
  - split; [reflexivity|].
    eexists. split.
    + rewrite !app_assoc. reflexivity.
    + rewrite <- !app_assoc.
      repeat split; intros Hin; apply prefix_quiet in Hin;
        destruct Hin as (H1 & H2 & H3); congruence.
Qed.

Lemma close_only_after_signal_and_sleep_witness :
  fst (runState (runClient quietEnv init) initial) = Returned None /\
  exists before,
    mainEvents (snd (runState (runClient quietEnv init) initial)) =
      (before ++ [EvSignal; EvLogInfo "[client] shutting down";
                  EvSleep 200000000%Z; EvClose; EvCancel])%list /\
    ~ In EvSignal before /\ ~ In EvClose before /\ ~ In EvCancel before.
Proof.
  exact (proj2 (close_only_after_signal_and_sleep quietEnv init demoHost eq_refl eq_refl)
           eq_refl).
Defined.

(** Refutes membership of an action in a computed trace that holds no such
    action. *)
Ltac trace_absurd H :=
  cbn in H;
  repeat match type of H with
         | _ \/ _ => destruct H as [H|H]; [discriminate H|]
         | In _ (_ ++ _)%list => apply in_app_or in H; destruct H as [H|H]
         end;
  first [ contradiction
        | discriminate H
        | apply in_map_iff in H;
          let x := fresh "x" in
          let Hx := fresh "Hx" in
          let Hlog := fresh "Hlog" in
          let msg := fresh "msg" in
          destruct H as (x & Hx & Hlog);
          apply hostLines_log in Hlog; destruct Hlog as [msg ->]; discriminate Hx
        | cbn in H; intuition discriminate ].

(** C9: when [http.ListenAndServe] returns an error the backend goroutine
    logs it and cancels the root context, which stops the advertisement, but
    [runClient] does not return: with host and client built and no signal
    delivered, the process stays alive, blocked on the signal channel, with
    neither the backend serving nor the advertiser running. *)
Theorem backend_failure_leaves_process_waiting
    (env : Env) (f : Flags) (h : Host) (p : point) (e : error) :
  httpFate env = FailsAt p e -> p <> DuringSleep ->
  makeHostResult env = inr h -> newClientResult env = None ->
  signalArrives env = false ->
  let w := snd (runState (main env f) initial) in
  fst (runState (runClient env f) initial) = Blocked /\
  fst (runState (main env f) initial) = Running /\
  In (Backend, EvLogError "[client] http backend error" e) (trace w) /\
  In (Backend, EvCancel) (trace w) /\
  ~ In (Main, EvCancel) (trace w) /\
  ctxDone w = true /\ httpServing w = false /\ advertising w = false.
Proof.
  intros Hf Hp Hh Hc Hs w. subst w.
  destruct env as [fate mh nc sg]; simpl in Hf, Hh, Hc, Hs; subst.
  unfold main, runClient, Relaydns.MakeHost, Relaydns.NewClient, yield.
  rewrite (clientConfig_eq f). cbn [httpFate makeHostResult newClientResult signalArrives].
  destruct p; [| | |congruence]; cbn;
    (repeat split; try reflexivity;
     [ repeat rewrite in_app_iff; cbn; tauto
     | repeat rewrite in_app_iff; cbn; tauto
     | intros Hin; trace_absurd Hin ]).
Qed.

Lemma backend_failure_leaves_process_waiting_witness :
  fst (runState (runClient portTakenEnv init) initial) = Blocked /\
  fst (runState (main portTakenEnv init) initial) = Running /\
  ctxDone (snd (runState (main portTakenEnv init) initial)) = true /\
  httpServing (snd (runState (main portTakenEnv init) initial)) = false /\
  advertising (snd (runState (main portTakenEnv init) initial)) = false.
Proof.
  assert (Hp : AtStartup <> DuringSleep) by discriminate.
  destruct (backend_failure_leaves_process_waiting portTakenEnv init demoHost AtStartup
              (ErrNew "listen tcp :8081: bind: address already in use")
              eq_refl Hp eq_refl eq_refl eq_refl)
    as (H1 & H2 & _ & _ & _ & H3 & H4 & H5).
  repeat split; assumption.
Defined.

(** ** The client library *)

Lemma teardown_idem (w : World) :
  Relaydns.teardown (Relaydns.teardown w) = Relaydns.teardown w.
Proof.
  unfold Relaydns.teardown.
  destruct (session w) as [[]|] eqn:Hs; cbn; rewrite ?Hs; reflexivity.
Qed.

Lemma runClient_releases (env : Env) (f : Flags) :
  releases (snd (runState (runClient env f) initial)) <= 1.
Proof.
  destruct env as [fate mh nc sg].
  unfold runClient, Relaydns.MakeHost, Relaydns.NewClient, yield.
  rewrite (clientConfig_eq f).
  destruct fate as [|[] ?], mh as [err|h], nc as [err'|], sg; cbn; lia.
Qed.

(** C7: a second [Close] on the same client returns no error and changes
    nothing: the session stays closed and its resources, released by the
    first call if it was advertising, are not released again.  No run of the
    program releases them more than once either, whether the session is
    closed by the cancellation, by the deferred [Close], or by both. *)
Theorem Close_is_idempotent (w : World) :
  let first := runState Relaydns.Close w in
  let second := runState Relaydns.Close (snd first) in
  fst first = None /\
  fst second = None /\
  snd second = snd first /\
  releases (snd second) = releases (snd first) /\
  releases (snd first) = releases w + (if advertising w then 1 else 0) /\
  advertising (snd first) = false /\
  (forall env f, releases (snd (runState (runClient env f) initial)) <= 1).
Proof.
  intros first second. subst first second. cbn.
  rewrite teardown_idem.
  repeat split; try apply runClient_releases.
  all: unfold Relaydns.teardown, advertising;
    destruct (session w) as [[]|] eqn:Hs; cbn; rewrite ?Hs; lia || reflexivity.
Qed.

Section SelectorFacts.
Variable addr : Type.
Variable isQUIC : addr -> bool.
Variable isLocal : addr -> bool.
Variable cfg : Relaydns.PreferenceConfig.

Local Abbreviation rank := (Relaydns.rank addr isQUIC isLocal cfg).
Local Abbreviation place := (Relaydns.place addr isQUIC isLocal cfg).
Local Abbreviation selectAddrs := (Relaydns.selectAddrs addr isQUIC isLocal cfg).

Lemma place_permutation (a : addr) (l : list addr) :
  Permutation (a :: l) (place a l).
Proof.
  induction l as [|b l IH]; simpl; [reflexivity|].
  match goal with |- context [if ?t then _ else _] => destruct t end;
    [reflexivity|].
  rewrite perm_swap. apply perm_skip, IH.
Qed.

Lemma selectAddrs_permutation (l : list addr) :
  Permutation l (selectAddrs l).
Proof.
  induction l as [|a l IH]; simpl; [constructor|].
  etransitivity; [apply perm_skip, IH | apply place_permutation].
Qed.

(** The output is ordered by [rank], most preferred first. *)
Lemma place_sorted (a : addr) (l : list addr) :
  Sorted (fun x y => rank x <= rank y) l ->
  Sorted (fun x y => rank x <= rank y) (place a l).
Proof.
  induction l as [|b l IH]; intros Hs; simpl.
  - repeat constructor.
  - destruct (Nat.leb_spec (rank a) (rank b)) as [Hle|Hgt].
    + constructor; [exact Hs | constructor; exact Hle].
    + inversion Hs as [|? ? Hs' Hhd]; subst.
      constructor; [apply IH, Hs'|].
      destruct l as [|c l']; simpl.
      * constructor. lia.
      * destruct (Nat.leb_spec (rank a) (rank c)).
        -- constructor. lia.
        -- inversion Hhd; subst. constructor. assumption.
Qed.

Lemma selectAddrs_sorted (l : list addr) :
  Sorted (fun x y => rank x <= rank y) (selectAddrs l).
Proof.
  induction l as [|a l IH]; simpl; [constructor | apply place_sorted, IH].
Qed.

End SelectorFacts.

(** C6: for every preference configuration and every list of candidate
    addresses, the selector's output is a permutation of its input (nothing
    is added, nothing is dropped), and it is a function of the configuration
    and the input: equal inputs give the same ordered output. *)
Theorem selectAddrs_permutes_deterministically
    (addr : Type) (isQUIC isLocal : addr -> bool)
    (cfg : Relaydns.PreferenceConfig) (l : list addr) :
  Permutation l (Relaydns.selectAddrs addr isQUIC isLocal cfg l) /\
  length (Relaydns.selectAddrs addr isQUIC isLocal cfg l) = length l /\
  (forall a, In a (Relaydns.selectAddrs addr isQUIC isLocal cfg l) <-> In a l) /\
  (forall cfg' l', cfg' = cfg -> l' = l ->
     Relaydns.selectAddrs addr isQUIC isLocal cfg' l' =
     Relaydns.selectAddrs addr isQUIC isLocal cfg l).
Proof.
  pose proof (selectAddrs_permutation addr isQUIC isLocal cfg l) as Hp.
  split; [exact Hp|]. split; [symmetry; apply Permutation_length, Hp|]. split.
  - intros a. split; intros Hin.
    + eapply Permutation_in; [symmetry; exact Hp | exact Hin].
    + eapply Permutation_in; [exact Hp | exact Hin].
  - intros cfg' l' -> ->. reflexivity.
Qed.

(** ** Further properties of the program *)

(** The main goroutine's actions in any run: they are fixed by what
    [MakeHost] and [NewClient] return and by the signal. *)
Lemma mainEvents_any_run (env : Env) (f : Flags) :
  exists cfg,
    clientConfig f = Ok cfg /\
    mainEvents (snd (runState (runClient env f) initial)) =
    EvMakeHost 0 (flagRelay f) ::
    match makeHostResult env with
    | inl _ => [EvCancel]
    | inr h =>
        EvNewClient h cfg ::
        match newClientResult env with
        | Some _ => [EvCancel]
        | None =>
            (hostLines h ++ [EvNotify] ++
             (if signalArrives env
              then [EvSignal; EvLogInfo "[client] shutting down";
                    EvSleep (200 * Millisecond)%Z; EvClose; EvCancel]
              else []))%list
        end
    end.
Proof.
  eexists. split; [apply clientConfig_eq|].
  unfold mainEvents.
  destruct env as [fate mh nc sg]; simpl.
  unfold runClient, Relaydns.MakeHost, Relaydns.NewClient, yield.
  rewrite (clientConfig_eq f).
  destruct fate as [|[] ?], mh as [err|h], nc as [err'|], sg; cbn;
    repeat rewrite filter_app; repeat rewrite map_app;
    rewrite ?filter_main_pair, ?map_snd_pair; cbn;
    repeat rewrite <- app_assoc; reflexivity.
Qed.




(** An error of [http.ListenAndServe] never reaches the caller: two runs
    that differ only in whether and when the backend fails give the same
    result, the same exit status and the same actions of the main
    goroutine. *)
Theorem backend_fate_does_not_surface (env env' : Env) (f : Flags) :
  makeHostResult env = makeHostResult env' ->
  newClientResult env = newClientResult env' ->
  signalArrives env = signalArrives env' ->
  fst (runState (runClient env f) initial) = fst (runState (runClient env' f) initial) /\
  fst (runState (main env f) initial) = fst (runState (main env' f) initial) /\
  mainEvents (snd (runState (runClient env f) initial)) =
  mainEvents (snd (runState (runClient env' f) initial)).
Proof.
  intros Hh Hc Hs.
  rewrite !main_runClient, !runClient_outcome, Hh, Hc, Hs.
  repeat split.
  destruct (mainEvents_any_run env f) as (cfg & Hcfg & ->).
  destruct (mainEvents_any_run env' f) as (cfg' & Hcfg' & ->).
  rewrite Hcfg in Hcfg'. injection Hcfg' as <-.
  rewrite Hh, Hc, Hs. reflexivity.
Qed.

Lemma backend_fate_does_not_surface_witness :
  fst (runState (main portTakenEnv init) initial) =
  fst (runState (main {| httpFate := ServesForever; makeHostResult := inr demoHost;
                         newClientResult := None; signalArrives := false |} init) initial).
Proof.
  exact (proj1 (proj2 (backend_fate_does_not_surface portTakenEnv
                         {| httpFate := ServesForever; makeHostResult := inr demoHost;
                            newClientResult := None; signalArrives := false |}
                         init eq_refl eq_refl eq_refl))).
Defined.

(** When construction fails the deferred [cancel] still runs, so the
    root context ends cancelled, and [client.Close()] is not called: it is
    deferred only after [NewClient] has succeeded. *)
Theorem failed_construction_cancels_without_close (env : Env) (f : Flags) :
  (exists e, makeHostResult env = inl e) \/
  (exists e, newClientResult env = Some e) ->
  let w := snd (runState (runClient env f) initial) in
  ctxDone w = true /\
  In EvCancel (mainEvents w) /\
  ~ In EvClose (mainEvents w) /\
  ~ In EvNotify (mainEvents w).
Proof.
  intros Hfail w. subst w.
  destruct (mainEvents_any_run env f) as (cfg & _ & ->).
  destruct env as [fate mh nc sg]; simpl in *.
  unfold runClient, Relaydns.MakeHost, Relaydns.NewClient, yield.
  rewrite (clientConfig_eq f). cbn [httpFate makeHostResult newClientResult signalArrives].
  assert (Hcase : (exists e, mh = inl e) \/ (exists h e, mh = inr h /\ nc = Some e)).
  { destruct mh as [e|h]; [left; eauto|].
    destruct Hfail as [[e He]|[e He]]; [discriminate | right; eauto]. }
  destruct Hcase as [[e ->]|(h & e & -> & ->)];
    destruct fate as [|[] ?]; cbn;
    (repeat split; try reflexivity; try tauto; intros Hin; cbn in Hin;
     intuition discriminate).
Qed.

Lemma failed_construction_cancels_without_close_witness :
  ctxDone (snd (runState (runClient noClientEnv init) initial)) = true /\
  In EvCancel (mainEvents (snd (runState (runClient noClientEnv init) initial))) /\
  ~ In EvClose (mainEvents (snd (runState (runClient noClientEnv init) initial))).
Proof.
  destruct (failed_construction_cancels_without_close noClientEnv init
              (or_intror (ex_intro _ (ErrNew "no bootstrap peers") eq_refl)))
    as (H1 & H2 & H3 & _).
  split; [exact H1 | split; [exact H2 | exact H3]].
Defined.

Lemma splitHostPort_app (pre s h p : string) :
  splitHostPort s = Some (h, p) -> splitHostPort (pre ++ s) = Some (pre ++ h, p).
Proof.
  intros Hs. induction pre as [|c pre IH]; simpl; [exact Hs|].
  rewrite IH. reflexivity.
Qed.

(** Normalizing twice is normalizing once: a target is never of the form
    [:port], so [addrToTarget] leaves every target it produced as it is. *)
Theorem addrToTarget_idempotent (listen : string) :
  exists target,
    addrToTarget listen = Ok target /\
    startsWithColon target = false /\
    addrToTarget target = Ok target /\
    bindr (addrToTarget listen) addrToTarget = addrToTarget listen.
Proof.
  exists (if startsWithColon listen then "127.0.0.1" ++ listen else listen).
  assert (Hnc : startsWithColon
                  (if startsWithColon listen then "127.0.0.1" ++ listen else listen) = false).
  { destruct (startsWithColon listen) eqn:Hc; [reflexivity | exact Hc]. }
  rewrite (addrToTarget_eq listen). cbn [bindr].
  rewrite addrToTarget_eq, Hnc. repeat split; reflexivity.
Qed.

(** Normalization keeps the port: what follows the last colon of the
    target is what follows the last colon of the listen address, and the
    target is the listen address behind at most the nine bytes of
    127.0.0.1. *)
Theorem addrToTarget_keeps_port (listen : string) :
  exists target,
    addrToTarget listen = Ok target /\
    option_map snd (splitHostPort target) = option_map snd (splitHostPort listen) /\
    (target = listen \/ target = "127.0.0.1" ++ listen) /\
    len target = len listen + (if startsWithColon listen then 9 else 0).
Proof.
  eexists. split; [apply addrToTarget_eq|].
  destruct (startsWithColon listen) eqn:Hc.
  - destruct (splitHostPort_colon listen Hc) as (h & p & Hs).
    rewrite (splitHostPort_app "127.0.0.1" listen h p Hs), Hs.
    repeat split; [right; reflexivity | unfold len; simpl; lia].
  - repeat split; [left; reflexivity | unfold len; lia].
Qed.

Lemma hostLines_shape (h : Host) :
  length (hostLines h) = Nat.max 1 (length (Addrs h)) /\
  (Addrs h = [] ->
     hostLines h = [EvLogInfo ("[client] host peer: " ++ ID h ++ " (no listen addrs yet)")]) /\
  (forall i a, nth_error (Addrs h) i = Some a ->
     nth_error (hostLines h) i =
       Some (EvLogInfo ("[client] host addr: " ++ a ++ "/p2p/" ++ ID h))).
Proof.
  unfold hostLines. destruct (Addrs h) as [|a0 l] eqn:Ha.
  - repeat split; [intros i a Hn; destruct i; discriminate].
  - split; [|split].
    + rewrite length_map. simpl. lia.
    + discriminate.
    + intros i a Hn.
      rewrite nth_error_map, Hn. reflexivity.
Qed.

(** In every run whose client is built, [runClient] logs the host between
    the call of [NewClient] and [signal.Notify]: one line per listen
    address, in order, each ending in [/p2p/] and the peer ID, or, when the
    host has no address yet, a single line that names the peer. *)
Theorem runClient_logs_the_host (env : Env) (f : Flags) (h : Host) :
  makeHostResult env = inr h -> newClientResult env = None ->
  exists cfg lines rest,
    mainEvents (snd (runState (runClient env f) initial)) =
      ([EvMakeHost 0 (flagRelay f); EvNewClient h cfg] ++ lines ++ EvNotify :: rest)%list /\
    length lines = Nat.max 1 (length (Addrs h)) /\
    (Addrs h = [] ->
       lines = [EvLogInfo ("[client] host peer: " ++ ID h ++ " (no listen addrs yet)")]) /\
    (forall i a, nth_error (Addrs h) i = Some a ->
       nth_error lines i =
         Some (EvLogInfo ("[client] host addr: " ++ a ++ "/p2p/" ++ ID h))) /\
    (forall e, In e rest -> forall msg, e <> EvLogInfo msg \/ msg = "[client] shutting down").
Proof.
  intros Hh Hc.
  destruct (mainEvents_any_run env f) as (cfg & _ & Hrun).
  rewrite Hh, Hc in Hrun.
  exists cfg, (hostLines h).
  eexists. split; [rewrite Hrun; reflexivity|].
  destruct (hostLines_shape h) as (Hlen & Hnone & Hnth).
  split; [exact Hlen|]. split; [exact Hnone|]. split; [exact Hnth|].
  intros e Hin msg. destruct (signalArrives env); cbn in Hin; [|contradiction].
  destruct Hin as [<-|[<-|[<-|[<-|[<-|[]]]]]];
    try (left; discriminate).
  destruct (String.eqb_spec msg "[client] shutting down") as [->|Hne];
    [right; reflexivity | left; congruence].
Qed.

Lemma runClient_logs_the_host_witness :
  exists cfg lines rest,
    mainEvents (snd (runState (runClient quietEnv init) initial)) =
      ([EvMakeHost 0 true; EvNewClient demoHost cfg] ++ lines ++ EvNotify :: rest)%list /\
    nth_error lines 0 =
      Some (EvLogInfo "[client] host addr: /ip4/127.0.0.1/udp/4001/quic-v1/p2p/12D3KooWdemo").
Proof.
  destruct (runClient_logs_the_host quietEnv init demoHost eq_refl eq_refl)
    as (cfg & lines & rest & Hrun & _ & _ & Hnth & _).
  exists cfg, lines, rest. split; [exact Hrun|].
  exact (Hnth 0 "/ip4/127.0.0.1/udp/4001/quic-v1" eq_refl).
Defined.

(** ** The HTTP backend *)

Lemma append_assoc (a b c : string) : (a ++ b) ++ c = a ++ (b ++ c).
Proof. induction a as [|x a IH]; simpl; [reflexivity | now rewrite IH]. Qed.

Lemma Write_spec (p : string) (w : Http.ResponseWriter) :
  Http.Write p w =
  {| Http.status := Some (match Http.status w with Some c => c | None => 200%Z end);
     Http.body := Http.body w ++ p |}.
Proof. destruct w as [[c|] b]; reflexivity. Qed.

(** Executing a template of the page's shape: text and the three fields. *)
Lemma Execute_page (t1 t2 t3 t4 : string) (d : Http.PageData) (w : Http.ResponseWriter) :
  Http.Execute [Http.TextNode t1; Http.FieldNode "Now"; Http.TextNode t2;
                Http.FieldNode "Host"; Http.TextNode t3; Http.FieldNode "Addr";
                Http.TextNode t4] d w =
  ({| Http.status := Some (match Http.status w with Some c => c | None => 200%Z end);
      Http.body := Http.body w ++ t1 ++ Http.Now d ++ t2 ++ Http.Host d ++ t3 ++
                   Http.Addr d ++ t4 |}, None).
Proof.
  cbn [Http.Execute Http.field String.eqb Ascii.eqb Bool.eqb].
  cbn -[Http.Write].
  rewrite !Write_spec. cbn [Http.status Http.body].
  rewrite !append_assoc. destruct w as [[c|] b]; reflexivity.
Qed.

Lemma pageTmpl_nodes :
  exists t1 t2 t3 t4,
    Http.pageTmpl =
      Ok [Http.TextNode t1; Http.FieldNode "Now"; Http.TextNode t2;
          Http.FieldNode "Host"; Http.TextNode t3; Http.FieldNode "Addr";
          Http.TextNode t4] /\
    t1 ++ "{{.Now}}" ++ t2 ++ "{{.Host}}" ++ t3 ++ "{{.Addr}}" ++ t4 = Http.pageText.
Proof.
  do 4 eexists. split; [cbv; reflexivity | cbv; reflexivity].
Qed.

(** The page template parses, so the program does not panic when it
    starts, and it names only fields the handler supplies, so the error the
    handler drops is never one of evaluation.  The handler writes the clock,
    the request's Host header and the listen flag as they are, with no
    escaping, between the four pieces of text of the template, and a fresh
    response gets status 200. *)
Theorem page_writes_host_verbatim :
  exists tmpl head mid foot tail,
    Http.pageTmpl = Ok tmpl /\
    head ++ "{{.Now}}" ++ mid ++ "{{.Host}}" ++ foot ++ "{{.Addr}}" ++ tail = Http.pageText /\
    forall f now r w,
      snd (Http.Execute tmpl {| Http.Now := now; Http.Host := Http.ReqHost r;
                                Http.Addr := flagBackendHTTP f |} w) = None /\
      Http.body (Http.pageHandler tmpl f now r w) =
        Http.body w ++ head ++ now ++ mid ++ Http.ReqHost r ++ foot ++
        flagBackendHTTP f ++ tail /\
      Http.status (Http.pageHandler tmpl f now r w) =
        Some (match Http.status w with Some c => c | None => 200%Z end).
Proof.
  destruct pageTmpl_nodes as (t1 & t2 & t3 & t4 & Hp & Htext).
  eexists. exists t1, t2, t3, t4. split; [exact Hp|]. split; [exact Htext|].
  intros f now r w. unfold Http.pageHandler. rewrite Execute_page.
  repeat split.
Qed.

(** The backend has a handler for every canonical request path:
    [/healthz] is answered by the health handler, with status 200 and the
    body [ok] whatever the request, and every other path by the page
    handler; no path gets a 404. *)
Theorem backend_answers_every_path (f : Flags) :
  exists tmpl mux,
    Http.pageTmpl = Ok tmpl /\
    Http.backendMux f = Ok mux /\
    forall now r w,
      Http.canonicalPath (Http.Path r) = true ->
      Http.ServeHTTP mux now r w =
        (if String.eqb (Http.Path r) "/healthz"
         then Http.healthzHandler now r w
         else Http.pageHandler tmpl f now r w) /\
      (Http.status w = None ->
         Http.status (Http.ServeHTTP mux now r w) = Some 200%Z) /\
      (String.eqb (Http.Path r) "/healthz" = true ->
         Http.ServeHTTP mux now r Http.fresh =
           {| Http.status := Some 200%Z; Http.body := "ok" |}).
Proof.
  destruct pageTmpl_nodes as (t1 & t2 & t3 & t4 & Hp & _).
  eexists. eexists. split; [exact Hp|]. split.
  { unfold Http.backendMux. rewrite Hp. reflexivity. }
  intros now r w Hcanon.
  assert (Hpre : String.prefix "/" (Http.Path r) = true).
  { unfold Http.canonicalPath in Hcanon. apply andb_prop in Hcanon. apply Hcanon. }
  assert (Hserve : forall w',
    Http.ServeHTTP
      [("/", Http.pageHandler
               [Http.TextNode t1; Http.FieldNode "Now"; Http.TextNode t2;
                Http.FieldNode "Host"; Http.TextNode t3; Http.FieldNode "Addr";
                Http.TextNode t4] f);
       ("/healthz", Http.healthzHandler)] now r w' =
    (if String.eqb (Http.Path r) "/healthz"
     then Http.healthzHandler now r w'
     else Http.pageHandler
            [Http.TextNode t1; Http.FieldNode "Now"; Http.TextNode t2;
             Http.FieldNode "Host"; Http.TextNode t3; Http.FieldNode "Addr";
             Http.TextNode t4] f now r w')).
  { intros w'. unfold Http.ServeHTTP, Http.lookup, Http.patternMatches.
    change (Http.endsWithSlash "/") with true.
    change (Http.endsWithSlash "/healthz") with false.
    cbv iota. rewrite Hpre.
    rewrite (String.eqb_sym "/healthz" (Http.Path r)).
    destruct (String.eqb (Http.Path r) "/healthz"); reflexivity. }
  cbn [app] in Hserve |- *. rewrite !Hserve.
  split; [reflexivity|]. split.
  - intros Hw.
    destruct (String.eqb (Http.Path r) "/healthz").
    + unfold Http.healthzHandler. rewrite Write_spec.
      unfold Http.WriteHeader. rewrite Hw. reflexivity.
    + unfold Http.pageHandler. rewrite Execute_page. cbn. rewrite Hw. reflexivity.
  - intros Hh. rewrite Hh. reflexivity.
Qed.

Lemma backend_answers_every_path_witness :
  exists mux,
    Http.backendMux init = Ok mux /\
    Http.status (Http.ServeHTTP mux "Mon, 02 Jan 2006 15:04:05 MST"
                   {| Http.Path := "/favicon.ico"; Http.ReqHost := "localhost:8081" |}
                   Http.fresh) = Some 200%Z /\
    Http.ServeHTTP mux "Mon, 02 Jan 2006 15:04:05 MST"
      {| Http.Path := "/healthz"; Http.ReqHost := "localhost:8081" |} Http.fresh =
      {| Http.status := Some 200%Z; Http.body := "ok" |}.
Proof.
  destruct (backend_answers_every_path init) as (tmpl & mux & _ & Hmux & Hserve).
  exists mux. split; [exact Hmux|]. split.
  - exact (proj1 (proj2 (Hserve _ {| Http.Path := "/favicon.ico";
                                     Http.ReqHost := "localhost:8081" |}
                           Http.fresh eq_refl)) eq_refl).
  - exact (proj2 (proj2 (Hserve _ {| Http.Path := "/healthz";
                                     Http.ReqHost := "localhost:8081" |}
                           Http.fresh eq_refl)) eq_refl).
Defined.

Lemma loopback_prefix_changes (s : string) : "127.0.0.1" ++ s <> s.
Proof.
  intros H. apply (f_equal String.length) in H.
  simpl in H. lia.
Qed.

(** The backend listens on the flag as it was given while the advert
    carries the normalized target: the two are the same address unless the
    flag begins with a colon. *)
Theorem listen_address_and_target (env : Env) (f : Flags) (h : Host) :
  makeHostResult env = inr h ->
  exists cfg,
    clientConfig f = Ok cfg /\
    In (Backend, EvListenAndServe (flagBackendHTTP f))
       (trace (snd (runState (runClient env f) initial))) /\
    In (Main, EvNewClient h cfg)
       (trace (snd (runState (runClient env f) initial))) /\
    (TargetTCP cfg = flagBackendHTTP f <-> startsWithColon (flagBackendHTTP f) = false).
Proof.
  intros Hh. eexists. split; [apply clientConfig_eq|].
  split; [apply runClient_serves|].
  split; [apply runClient_calls_NewClient; [exact Hh | apply clientConfig_eq]|].
  cbn [TargetTCP]. destruct (startsWithColon (flagBackendHTTP f)).
  - split; [intros H; now apply loopback_prefix_changes in H | discriminate].
  - split; reflexivity.
Qed.

Lemma listen_address_and_target_witness :
  exists cfg,
    clientConfig init = Ok cfg /\
    In (Backend, EvListenAndServe ":8081")
       (trace (snd (runState (runClient quietEnv init) initial))) /\
    TargetTCP cfg <> ":8081".
Proof.
  destruct (listen_address_and_target quietEnv init demoHost eq_refl)
    as (cfg & Hcfg & Hserve & _ & Hiff).
  exists cfg. split; [exact Hcfg | split; [exact Hserve|]].
  intros Heq. apply Hiff in Heq. discriminate Heq.
Defined.
